(** * ChatView.post: a relay from an HTTP request to a chat-completion provider

    Shallow embedding of [backend/chat/views.py].  The handler is a short
    effectful Python method: it reads the request body, reads two environment
    variables, constructs a provider client, performs one provider call inside
    a [try] block with four ordered [except] clauses, and prints a log line in
    each clause.  The embedding keeps those effects visible:

    - values coming from the request body are JSON values with Python's
      truthiness ([not user_text]);
    - the process environment is a finite map from names to strings;
    - the provider, which the code only consumes, is a record of oracles
      ([World]) saying what the client constructor and the
      [chat.completions.create] call do;
    - every effect of the handler is appended to a trace of events, so that
      "no outbound call is attempted" is a statement about the trace;
    - Python exceptions are values carrying the method resolution order of
      their class, and [try ... except C1 ... except C2 ...] is the first
      clause whose class occurs in that order. *)

From Stdlib Require Import ZArith PrimFloat.
From stdpp Require Import base strings list gmap.

Local Open Scope Z_scope.
#[local] Set Warnings "-register-all".
Local Open Scope string_scope.

(** ** Python values read from a request body *)

Module Py.

(** What [request.data] and its fields can hold after JSON parsing. *)
Inductive json : Type :=
| JNull
| JBool (b : bool)
| JInt (n : Z)
| JFloat (x : float)
| JStr (s : string)
| JList (l : list json)
| JObj (d : gmap string json).

(** [bool(v)], as used by [not v] and [if v]. *)
Definition truthy (v : json) : bool :=
  match v with
  | JNull => false
  | JBool b => b
  | JInt n => negb (Z.eqb n 0)
  | JFloat x => negb (PrimFloat.eqb x 0%float)
  | JStr s => negb (Nat.eqb (String.length s) 0)
  | JList l => negb (Nat.eqb (length l) 0)
  | JObj d => negb (Nat.eqb (size d) 0)
  end.

(** [type(v).__name__] *)
Definition type_name (v : json) : string :=
  match v with
  | JNull => "NoneType"
  | JBool _ => "bool"
  | JInt _ => "int"
  | JFloat _ => "float"
  | JStr _ => "str"
  | JList _ => "list"
  | JObj _ => "dict"
  end.

(** [not s] for the result of [os.getenv], which is [None] or a [str]. *)
Definition truthy_env (o : option string) : bool :=
  match o with
  | None => false
  | Some s => negb (Nat.eqb (String.length s) 0)
  end.

(** Exception classes the handler names or raises itself, and a constructor
    for any other class. *)
Inductive exc_class : Type :=
| BaseException
| Exception
| LookupError
| IndexError
| AttributeError
| APIError
| APIConnectionError
| RateLimitError
| OtherClass (name : string).

#[global] Instance exc_class_eq_dec : EqDecision exc_class.
Proof. solve_decision. Defined.

(** An exception object: the method resolution order of its class (the class
    itself first, then its ancestors) and the result of [str(e)]. *)
Record exn : Type := mkExn {
  exc_mro : list exc_class;
  exc_str : string
}.

(** [isinstance(e, c)], the test an [except c] clause performs. *)
Definition isinstance (e : exn) (c : exc_class) : bool :=
  bool_decide (c ∈ exc_mro e).

Definition index_error : exn :=
  mkExn [IndexError; LookupError; Exception; BaseException]
        "list index out of range".

Definition attribute_error (v : json) (attr : string) : exn :=
  mkExn [AttributeError; Exception; BaseException]
        ("'" ++ type_name v ++ "' object has no attribute '" ++ attr ++ "'").

End Py.
Export Py.

(** ** The provider interface and the handler's effects *)

(** [openai.OpenAI(api_key=..., base_url=...)]: the client remembers the two
    arguments it was built with; [None] for [base_url] leaves the choice of
    endpoint to the provider library. *)
Record Client : Type := mkClient {
  api_key : option string;
  base_url : option string
}.

(** The endpoint a client sends its calls to, given the provider's default. *)
Definition client_target (provider_default : string) (c : Client) : string :=
  default provider_default (base_url c).

(** The part of a completion the handler looks at:
    [chat_completion.choices[i].message.content], typed as the provider
    library declares it: a list of choices, each with a message whose
    [content] may be [None]. *)
Record ChatCompletionMessage : Type := { message_content : option string }.
Record Choice : Type := { message : ChatCompletionMessage }.
Record ChatCompletion : Type := { choices : list Choice }.

(** [rest_framework.response.Response(data, status=None)]; the status code of
    a response built without [status] is 200. *)
Record Response : Type := {
  data : gmap string json;
  status_code : Z
}.

Definition HTTP_200_OK : Z := 200.
Definition HTTP_400_BAD_REQUEST : Z := 400.
Definition HTTP_429_TOO_MANY_REQUESTS : Z := 429.
Definition HTTP_500_INTERNAL_SERVER_ERROR : Z := 500.
Definition HTTP_502_BAD_GATEWAY : Z := 502.
Definition HTTP_503_SERVICE_UNAVAILABLE : Z := 503.

Definition mkResponse (d : gmap string json) (status : option Z) : Response :=
  {| data := d; status_code := default HTTP_200_OK status |}.

(** The incoming request: [request.data] is whatever the body parsed to. *)
Record Request : Type := { request_data : json }.

(** A statement either produces a value or raises. *)
Inductive outcome (A : Type) : Type :=
| Ok (a : A)
| Raise (e : exn).
Arguments Ok {A} a.
Arguments Raise {A} e.

(** Everything outside the handler: the process environment and what the
    provider library does when asked. [client_init k b = Some e] means the
    constructor raises [e]. *)
Record World : Type := {
  environ : gmap string string;
  client_init : option string -> option string -> option exn;
  completions_create :
    Client -> list (gmap string json) -> string -> outcome ChatCompletion
}.

(** Observable effects, in the order they happen. *)
Inductive event : Type :=
| EvGetenv (name : string)
| EvNewClient (key : option string) (url : option string)
| EvCreate (c : Client) (messages : list (gmap string json)) (model : string)
| EvPrint (line : string).

(** Computations: a trace of past events in, an outcome and the extended
    trace out. *)
Definition M (A : Type) : Type := list event -> outcome A * list event.

#[global] Instance M_ret : MRet M := fun A a t => (Ok a, t).
#[global] Instance M_bind : MBind M := fun A B f m t =>
  match m t with
  | (Ok a, t') => f a t'
  | (Raise e, t') => (Raise e, t')
  end.

Definition emit (ev : event) : M unit := fun t => (Ok tt, (t ++ [ev])%list).
Definition raise {A} (e : exn) : M A := fun t => (Raise e, t).
Definition lift {A} (o : outcome A) : M A := fun t => (o, t).

(** One [except cls as e: handler] clause. *)
Definition except_clause (A : Type) : Type := (exc_class * (exn -> M A))%type.

(** The clause that handles [e]: the first one, in textual order, whose class
    [e] is an instance of. *)
Fixpoint find_clause {A} (clauses : list (except_clause A)) (e : exn)
  : option (exn -> M A) :=
  match clauses with
  | [] => None
  | (cls, handler) :: rest =>
      if isinstance e cls then Some handler else find_clause rest e
  end.

(** [try: body  except ...]: an exception no clause matches keeps
    propagating. *)
Definition try_except {A} (body : M A) (clauses : list (except_clause A)) : M A :=
  fun t =>
    match body t with
    | (Ok a, t') => (Ok a, t')
    | (Raise e, t') =>
        match find_clause clauses e with
        | Some handler => handler e t'
        | None => (Raise e, t')
        end
    end.

(** [d.get(key, dflt)]; only a dict has the method. *)
Definition dict_get (d : json) (key : string) (dflt : json) : M json :=
  match d with
  | JObj m => mret (default dflt (m !! key))
  | _ => raise (attribute_error d "get")
  end.

(** [l[i]] on a list, with Python's negative indices. *)
Definition getitem {A} (l : list A) (i : Z) : M A :=
  let n := Z.of_nat (length l) in
  let j := if Z.ltb i 0 then i + n else i in
  if Z.ltb j 0 || Z.leb n j then raise index_error
  else match l !! Z.to_nat j with
       | Some x => mret x
       | None => raise index_error
       end.

(** [os.getenv(name)] *)
Definition getenv (w : World) (name : string) : M (option string) :=
  emit (EvGetenv name);; mret (environ w !! name).

(** [openai.OpenAI(api_key=key, base_url=url)] *)
Definition OpenAI (w : World) (key url : option string) : M Client :=
  emit (EvNewClient key url);;
  match client_init w key url with
  | Some e => raise e
  | None => mret (mkClient key url)
  end.

(** [client.chat.completions.create(messages=..., model=...)] *)
Definition create (w : World) (c : Client)
    (messages : list (gmap string json)) (model : string) : M ChatCompletion :=
  emit (EvCreate c messages model);;
  lift (completions_create w c messages model).

(** [print(line)]: the line goes to the log; writing it is taken not to
    fail. *)
Definition print (line : string) : M unit := emit (EvPrint line).

(** A Python [str] or [None] placed in a response body. *)
Definition json_of_content (o : option string) : json :=
  match o with
  | Some s => JStr s
  | None => JNull
  end.

(** ** The handler *)

Module ChatView.

(** [ChatView.post(self, request)]: each [return] of the method is the value
    of the branch it sits in; the client is constructed before the [try]
    block, the provider call and the indexing of [choices] are inside it. *)
Definition post (w : World) (request : Request) : M Response :=
  user_text ← dict_get (request_data request) "text" (JStr "");
  if negb (truthy user_text) then
    mret (mkResponse {["error" := JStr "No text provided"]}
                     (Some HTTP_400_BAD_REQUEST))
  else
    api_key ← getenv w "OPENAI_API_KEY";
    base_url ← getenv w "BASE_URL";
    if negb (truthy_env api_key) then
      mret (mkResponse
              {["error" := JStr "Server configuration error: OpenAI API key missing"]}
              (Some HTTP_500_INTERNAL_SERVER_ERROR))
    else
      client ← OpenAI w api_key base_url;
      try_except
        (chat_completion ←
           create w client
             [ {["role" := JStr "user"; "content" := user_text]} ]
             "deepseek/deepseek-r1-0528:free";
         choice ← getitem (choices chat_completion) 0;
         let bot_response := message_content (message choice) in
         mret (mkResponse {["response" := json_of_content bot_response]} None))
        [ (APIConnectionError, fun e =>
             print ("OpenAI Connection Error: " ++ exc_str e);;
             mret (mkResponse
                     {["error" := JStr "Failed to connect to OpenAI API. Please check your network connection."]}
                     (Some HTTP_503_SERVICE_UNAVAILABLE)));
          (RateLimitError, fun e =>
             print ("OpenAI Rate Limit Error: " ++ exc_str e);;
             mret (mkResponse
                     {["error" := JStr "OpenAI API rate limit exceeded. Please try again later."]}
                     (Some HTTP_429_TOO_MANY_REQUESTS)));
          (APIError, fun e =>
             print ("OpenAI API Error: " ++ exc_str e);;
             mret (mkResponse
                     {["error" := JStr ("OpenAI API returned an error: " ++ exc_str e)]}
                     (Some HTTP_502_BAD_GATEWAY)));
          (Exception, fun e =>
             print ("Unexpected Error: " ++ exc_str e);;
             mret (mkResponse
                     {["error" := JStr "An unexpected error occurred on the server."]}
                     (Some HTTP_500_INTERNAL_SERVER_ERROR))) ].

(** Running the handler on a fresh trace. *)
Definition handle (w : World) (request : Request) : outcome Response * list event :=
  post w request [].

End ChatView.

(** ** Reading a trace *)

Definition is_provider_call (ev : event) : bool :=
  match ev with EvCreate _ _ _ => true | _ => false end.

(** The chat-completion calls sent to the provider. *)
Definition provider_calls (t : list event) : list event :=
  List.filter is_provider_call t.

(** The clients constructed. *)
Definition clients_built (t : list event) : list Client :=
  omap (fun ev => match ev with
                  | EvNewClient k u => Some (mkClient k u)
                  | _ => None
                  end) t.

(** ** Sample inputs *)

Module Samples.

Definition request_of (d : gmap string json) : Request :=
  {| request_data := JObj d |}.

Definition hello : Request := request_of {["text" := JStr "Hi"]}.

Definition completion_of (cs : list (option string)) : ChatCompletion :=
  {| choices := (fun c => {| message := {| message_content := c |} |}) <$> cs |}.

(** The provider library's own classes, with their ancestors:
    [RateLimitError < APIStatusError < APIError < OpenAIError < Exception],
    [APIConnectionError < APIError]. *)
Definition rate_limit_error (msg : string) : exn :=
  mkExn [RateLimitError; OtherClass "APIStatusError"; APIError;
         OtherClass "OpenAIError"; Exception; BaseException] msg.
Definition connection_error (msg : string) : exn :=
  mkExn [APIConnectionError; APIError; OtherClass "OpenAIError";
         Exception; BaseException] msg.
Definition bad_request_error (msg : string) : exn :=
  mkExn [OtherClass "BadRequestError"; OtherClass "APIStatusError"; APIError;
         OtherClass "OpenAIError"; Exception; BaseException] msg.
Definition value_error (msg : string) : exn :=
  mkExn [OtherClass "ValueError"; Exception; BaseException] msg.
Definition keyboard_interrupt : exn :=
  mkExn [OtherClass "KeyboardInterrupt"; BaseException] "".

(** A world with the key set, whose constructor succeeds and whose provider
    call has the given outcome. *)
Definition world_with (base : option string) (r : outcome ChatCompletion) : World :=
  {| environ :=
       match base with
       | Some u => <["BASE_URL" := u]> {["OPENAI_API_KEY" := "sk-test"]}
       | None => {["OPENAI_API_KEY" := "sk-test"]}
       end;
     client_init := fun _ _ => None;
     completions_create := fun _ _ _ => r |}.



Definition world_without_key : World :=
  {| environ := ∅;
     client_init := fun _ _ => None;
     completions_create := fun _ _ _ => Ok (completion_of [Some "unused"]) |}.

End Samples.

(** ** Vocabulary of the specification *)

(** The request body is an object whose [text] field holds the non-empty
    value [v]. *)
Definition text_present (request : Request) (v : json) : Prop :=
  match request_data request with
  | JObj d => d !! "text" = Some v ∧ truthy v = true
  | _ => False
  end.

(** The request body is an object whose [text] field is missing or empty. *)
Definition text_absent (request : Request) : Prop :=
  match request_data request with
  | JObj d =>
      match d !! "text" with
      | None => True
      | Some v => truthy v = false
      end
  | _ => False
  end.

(** [OPENAI_API_KEY] is set to the non-empty string [k]. *)
Definition key_present (w : World) (k : string) : Prop :=
  environ w !! "OPENAI_API_KEY" = Some k ∧ k ≠ "".

(** The client the handler builds for key [k]. *)
Definition client_for (w : World) (k : string) : Client :=
  mkClient (Some k) (environ w !! "BASE_URL").

(** Constructing that client does not raise. *)
Definition client_constructed (w : World) (k : string) : Prop :=
  client_init w (Some k) (environ w !! "BASE_URL") = None.

(** What the provider answers to the call the handler makes for text [v]
    under key [k]. *)
Definition provider_answer (w : World) (k : string) (v : json)
  : outcome ChatCompletion :=
  completions_create w (client_for w k)
    [ {["role" := JStr "user"; "content" := v]} ]
    "deepseek/deepseek-r1-0528:free".

(** The events up to and including the provider call. *)
Definition events_to_call (w : World) (k : string) (v : json) : list event :=
  [ EvGetenv "OPENAI_API_KEY"; EvGetenv "BASE_URL";
    EvNewClient (Some k) (environ w !! "BASE_URL");
    EvCreate (client_for w k)
      [ {["role" := JStr "user"; "content" := v]} ]
      "deepseek/deepseek-r1-0528:free" ].

(** The failure categories of the error table, in the order the specification
    lists them. *)
Inductive category : Type := Connection | RateLimit | ApiError | Unexpected.

Definition category_class (c : category) : exc_class :=
  match c with
  | Connection => APIConnectionError
  | RateLimit => RateLimitError
  | ApiError => APIError
  | Unexpected => Exception
  end.

(** Position in the priority order connection > rate-limit > API > unexpected. *)
Definition rank (c : category) : nat :=
  match c with
  | Connection => 0
  | RateLimit => 1
  | ApiError => 2
  | Unexpected => 3
  end.

Definition belongs (e : exn) (c : category) : Prop :=
  isinstance e (category_class c) = true.

(** The rows of the error table: status and caller-visible message. *)
Inductive row : Type :=
| RowNoText
| RowMissingKey
| RowFailure (c : category).

Definition row_status (r : row) : Z :=
  match r with
  | RowNoText => 400
  | RowMissingKey => 500
  | RowFailure Connection => 503
  | RowFailure RateLimit => 429
  | RowFailure ApiError => 502
  | RowFailure Unexpected => 500
  end.

Definition row_message (r : row) (provider_message : string) : string :=
  match r with
  | RowNoText => "No text provided"
  | RowMissingKey => "Server configuration error: OpenAI API key missing"
  | RowFailure Connection =>
      "Failed to connect to OpenAI API. Please check your network connection."
  | RowFailure RateLimit =>
      "OpenAI API rate limit exceeded. Please try again later."
  | RowFailure ApiError => "OpenAI API returned an error: " ++ provider_message
  | RowFailure Unexpected => "An unexpected error occurred on the server."
  end.

(** The response of a row: body [{"error": message}] with the row's status. *)
Definition row_response (r : row) (provider_message : string) : Response :=
  {| data := {["error" := JStr (row_message r provider_message)]};
     status_code := row_status r |}.


(** A success response: body [{"response": c}] with status 200. *)
Definition success_response (c : json) : Response :=
  {| data := {["response" := c]}; status_code := 200 |}.

(** The line each clause prints before answering. *)
Definition log_line (c : category) (e : exn) : string :=
  match c with
  | Connection => "OpenAI Connection Error: "
  | RateLimit => "OpenAI Rate Limit Error: "
  | ApiError => "OpenAI API Error: "
  | Unexpected => "Unexpected Error: "
  end ++ exc_str e.

(** The first category, in priority order, that [e] belongs to. *)
Definition classify (e : exn) : option category :=
  if isinstance e APIConnectionError then Some Connection
  else if isinstance e RateLimitError then Some RateLimit
  else if isinstance e APIError then Some ApiError
  else if isinstance e Exception then Some Unexpected
  else None.

(** ** The request before its body is parsed *)

(** [request.data] is a property of the framework's request: line 10
    evaluates it, which parses the body on first use. The evaluation yields
    the parsed body, or raises what the parser raises (a [ParseError] on a
    malformed body, an [UnsupportedMediaType] on a content type no parser
    takes). *)
Record HttpRequest : Type := { data_property : outcome json }.

(** [ChatView.post] on such a request: the evaluation of [request.data]
    comes first and stands outside any [try] block; the method then goes on
    with the parsed body. *)
Definition post_http (w : World) (request : HttpRequest) : M Response :=
  body ← lift (data_property request);
  ChatView.post w {| request_data := body |}.

Definition handle_http (w : World) (request : HttpRequest)
  : outcome Response * list event :=
  post_http w request [].

(** What the JSON parser raises on a malformed body. *)
Definition parse_error (detail : string) : exn :=
  mkExn [OtherClass "ParseError"; OtherClass "APIException"; Exception;
         BaseException]
        ("JSON parse error - " ++ detail).

(** ** Runs of the handler *)

(** The lines printed during a run, in order. *)
Definition printed (t : list event) : list string :=
  omap (fun ev => match ev with
                  | EvPrint line => Some line
                  | _ => None
                  end) t.

(** The environment variables read during a run, in order. *)
Definition env_reads (t : list event) : list string :=
  omap (fun ev => match ev with
                  | EvGetenv name => Some name
                  | _ => None
                  end) t.

(** The ways through the method, each with its outcome and its trace: the
    [get] on a body that is no object, the two early returns, the
    constructor raising, the [return] inside the [try] block, the indexing of
    an empty [choices], an exception one of the four clauses takes, and an
    exception none of them takes. *)
Inductive path (w : World) (request : Request)
  : outcome Response * list event -> Prop :=
| PathNotObject :
    (∀ d, request_data request ≠ JObj d) →
    path w request (Raise (attribute_error (request_data request) "get"), [])
| PathNoText :
    text_absent request →
    path w request (Ok (row_response RowNoText ""), [])
| PathNoKey v :
    text_present request v →
    truthy_env (environ w !! "OPENAI_API_KEY") = false →
    path w request
      (Ok (row_response RowMissingKey ""),
       [EvGetenv "OPENAI_API_KEY"; EvGetenv "BASE_URL"])
| PathClientRaises v k e :
    text_present request v → key_present w k →
    client_init w (Some k) (environ w !! "BASE_URL") = Some e →
    path w request
      (Raise e, [EvGetenv "OPENAI_API_KEY"; EvGetenv "BASE_URL";
                 EvNewClient (Some k) (environ w !! "BASE_URL")])
| PathSuccess v k comp ch rest :
    text_present request v → key_present w k → client_constructed w k →
    provider_answer w k v = Ok comp →
    choices comp = ch :: rest →
    path w request
      (Ok (success_response (json_of_content (message_content (message ch)))),
       events_to_call w k v)
| PathNoChoice v k comp :
    text_present request v → key_present w k → client_constructed w k →
    provider_answer w k v = Ok comp →
    choices comp = [] →
    path w request
      (Ok (row_response (RowFailure Unexpected) ""),
       (events_to_call w k v
          ++ [EvPrint "Unexpected Error: list index out of range"])%list)
| PathCaught v k e c :
    text_present request v → key_present w k → client_constructed w k →
    provider_answer w k v = Raise e →
    classify e = Some c →
    path w request
      (Ok (row_response (RowFailure c) (exc_str e)),
       (events_to_call w k v ++ [EvPrint (log_line c e)])%list)
| PathEscapes v k e :
    text_present request v → key_present w k → client_constructed w k →
    provider_answer w k v = Raise e →
    classify e = None →
    path w request (Raise e, events_to_call w k v).

(** ** The handler, path by path *)

(** Python's truthiness on the values a body can hold. *)
Example truthy_samples :
  truthy (JStr "") = false ∧ truthy (JStr " ") = true
  ∧ truthy JNull = false ∧ truthy (JBool false) = false
  ∧ truthy (JInt 0) = false ∧ truthy (JInt (-1)) = true
  ∧ truthy (JFloat (-0)%float) = false ∧ truthy (JFloat nan) = true
  ∧ truthy (JList []) = false ∧ truthy (JList [JNull]) = true
  ∧ truthy (JObj ∅) = false ∧ truthy (JObj {["k" := JNull]}) = true.
Proof. repeat split; reflexivity. Qed.

(** Indexing: in range, from the end, and out of range. *)
Example getitem_samples :
  getitem [10; 20; 30] 0 [] = (Ok 10, [])
  ∧ getitem [10; 20; 30] (-1) [] = (Ok 30, [])
  ∧ getitem [10; 20; 30] 3 [] = (Raise index_error, [])
  ∧ getitem [10; 20; 30] (-4) [] = (Raise index_error, [])
  ∧ getitem (@nil Z) 0 [] = (Raise index_error, []).
Proof. repeat split; reflexivity. Qed.

(** A full run: the four events of a successful exchange, in order. *)
Example run_hello :
  ChatView.handle (Samples.world_with None (Ok (Samples.completion_of [Some "Hello!"])))
                  Samples.hello
  = (Ok (mkResponse {["response" := JStr "Hello!"]} None),
     [EvGetenv "OPENAI_API_KEY"; EvGetenv "BASE_URL";
      EvNewClient (Some "sk-test") None;
      EvCreate (mkClient (Some "sk-test") None)
               [ {["role" := JStr "user"; "content" := JStr "Hi"]} ]
               "deepseek/deepseek-r1-0528:free"]).
Proof. reflexivity. Qed.

Lemma truthy_env_present k : k ≠ "" → truthy_env (Some k) = true.
Proof. destruct k; [congruence | reflexivity]. Qed.

(** Unfolds the handler and the monad down to the trace transformer. *)
Ltac run :=
  unfold ChatView.handle, ChatView.post, dict_get, getenv, OpenAI, create,
    print, emit, lift, raise, try_except, getitem;
  unfold mbind, mret, M_bind, M_ret; simpl.

(** Takes the three standing assumptions apart and runs the handler up to
    the construction of the client. *)
Ltac enter_try Ht Hv Hk Hne :=
  unfold text_present, key_present, provider_answer, client_for;
  match goal with
  | |- context [ChatView.handle _ ?r] => destruct r as [[]]; simpl; try tauto
  end;
  intros [Ht Hv] [Hk Hne]; run;
  rewrite Ht; simpl; rewrite Hv; simpl; rewrite Hk;
  rewrite (truthy_env_present _ Hne); simpl.

Section Paths.

Variable w : World.
Variable request : Request.

(** With a text, a key and a client, the handler reaches the provider call;
    when the call raises [e], the answer is decided by [classify e]. *)
Lemma handle_call_raises v k e :
  text_present request v → key_present w k → client_constructed w k →
  provider_answer w k v = Raise e →
  ChatView.handle w request =
    match classify e with
    | Some c => (Ok (row_response (RowFailure c) (exc_str e)),
                 (events_to_call w k v ++ [EvPrint (log_line c e)])%list)
    | None => (Raise e, events_to_call w k v)
    end.
Proof.
  unfold client_constructed. enter_try Ht Hv Hk Hne.
  intros Hc Ha. rewrite Hc, Ha. unfold classify.
  repeat (destruct (isinstance e _); [reflexivity |]). reflexivity.
Qed.

(** When the call returns, the first choice decides: its content is sent back,
    or indexing the empty list raises [IndexError] inside the [try] block. *)
Lemma handle_call_returns v k comp :
  text_present request v → key_present w k → client_constructed w k →
  provider_answer w k v = Ok comp →
  ChatView.handle w request =
    match choices comp with
    | ch :: _ =>
        (Ok (success_response (json_of_content (message_content (message ch)))),
         events_to_call w k v)
    | [] =>
        (Ok (row_response (RowFailure Unexpected) ""),
         (events_to_call w k v
            ++ [EvPrint "Unexpected Error: list index out of range"])%list)
    end.
Proof.
  unfold client_constructed. enter_try Ht Hv Hk Hne.
  intros Hc Ha. rewrite Hc, Ha. destruct (choices comp); reflexivity.
Qed.

(** When the constructor raises, the exception leaves the handler: the
    construction is not inside the [try] block. *)
Lemma handle_client_raises v k e :
  text_present request v → key_present w k →
  client_init w (Some k) (environ w !! "BASE_URL") = Some e →
  ChatView.handle w request =
    (Raise e, [EvGetenv "OPENAI_API_KEY"; EvGetenv "BASE_URL";
               EvNewClient (Some k) (environ w !! "BASE_URL")]).
Proof.
  enter_try Ht Hv Hk Hne. intros Hc. rewrite Hc. reflexivity.
Qed.

(** Without a usable key the handler answers after the two configuration
    reads. *)
Lemma handle_no_key v :
  text_present request v →
  truthy_env (environ w !! "OPENAI_API_KEY") = false →
  ChatView.handle w request =
    (Ok (row_response RowMissingKey ""),
     [EvGetenv "OPENAI_API_KEY"; EvGetenv "BASE_URL"]).
Proof.
  unfold text_present. destruct request as [[]]; simpl; try tauto.
  intros [Ht Hv] Hk. run. rewrite Ht; simpl. rewrite Hv; simpl.
  rewrite Hk. reflexivity.
Qed.

(** Without a text the handler answers at once. *)
Lemma handle_no_text :
  text_absent request →
  ChatView.handle w request = (Ok (row_response RowNoText ""), []).
Proof.
  unfold text_absent. destruct request as [[]]; simpl; try tauto.
  run. destruct (_ !! "text") as [v|]; simpl.
  - intros Hv. rewrite Hv. reflexivity.
  - reflexivity.
Qed.

(** A body that is not an object has no [get]. *)
Lemma handle_not_object :
  (∀ d, request_data request ≠ JObj d) →
  ChatView.handle w request =
    (Raise (attribute_error (request_data request) "get"), []).
Proof.
  destruct request as [[]]; simpl; intros Hd; try reflexivity.
  exfalso. eapply Hd. reflexivity.
Qed.

End Paths.

(** ** Properties of the handler *)

(** C1: for a request with a non-empty text and the API key present, when the
    provider call succeeds and returns a first choice, the handler makes
    exactly one chat-completion call, whose message list is the single
    message with role "user" and the text as content and whose model is
    "deepseek/deepseek-r1-0528:free", and it returns the body
    [{"response": c}] with status 200, [c] being the content of the first
    choice. *)
Theorem post_success w request v k comp ch rest :
  text_present request v → key_present w k → client_constructed w k →
  provider_answer w k v = Ok comp →
  choices comp = ch :: rest →
  ∃ t,
    ChatView.handle w request =
      (Ok {| data := {["response" := json_of_content (message_content (message ch))]};
             status_code := 200 |}, t)
    ∧ provider_calls t =
        [ EvCreate (mkClient (Some k) (environ w !! "BASE_URL"))
            [ {["role" := JStr "user"; "content" := v]} ]
            "deepseek/deepseek-r1-0528:free" ].
Proof.
  intros Ht Hk Hc Ha Hch. eexists. split.
  - rewrite (handle_call_returns w request v k comp Ht Hk Hc Ha), Hch.
    reflexivity.
  - reflexivity.
Qed.

Lemma post_success_witness :
  ∃ t,
    ChatView.handle
      (Samples.world_with None (Ok (Samples.completion_of [Some "Hello!"; Some "Bye"])))
      Samples.hello
    = (Ok {| data := {["response" := JStr "Hello!"]}; status_code := 200 |}, t)
    ∧ provider_calls t =
        [ EvCreate (mkClient (Some "sk-test") None)
            [ {["role" := JStr "user"; "content" := JStr "Hi"]} ]
            "deepseek/deepseek-r1-0528:free" ].
Proof.
  apply (post_success
           (Samples.world_with None (Ok (Samples.completion_of [Some "Hello!"; Some "Bye"])))
           Samples.hello (JStr "Hi") "sk-test"
           (Samples.completion_of [Some "Hello!"; Some "Bye"])
           {| message := {| message_content := Some "Hello!" |} |}
           [ {| message := {| message_content := Some "Bye" |} |} ]).
  - split; reflexivity.
  - split; [reflexivity | discriminate].
  - reflexivity.
  - reflexivity.
  - reflexivity.
Defined.

(** C2: for a request whose [text] field is missing or empty, the handler
    returns exactly [{"error": "No text provided"}] with status 400, and its
    trace is empty: no configuration was read and no client or provider call
    was attempted. *)
Theorem post_no_text w request :
  text_absent request →
  ChatView.handle w request =
    (Ok {| data := {["error" := JStr "No text provided"]}; status_code := 400 |},
     []).
Proof. intros Ht. rewrite (handle_no_text w request Ht). reflexivity. Qed.

Lemma post_no_text_witness :
  ChatView.handle Samples.world_without_key
                  (Samples.request_of {["text" := JStr ""]})
  = (Ok {| data := {["error" := JStr "No text provided"]}; status_code := 400 |},
     [])
  ∧ ChatView.handle (Samples.world_with None (Raise (Samples.value_error "x")))
                    (Samples.request_of {["other" := JInt 1]})
  = (Ok {| data := {["error" := JStr "No text provided"]}; status_code := 400 |},
     []).
Proof.
  split.
  - apply (post_no_text Samples.world_without_key
             (Samples.request_of {["text" := JStr ""]})).
    reflexivity.
  - apply (post_no_text (Samples.world_with None (Raise (Samples.value_error "x")))
             (Samples.request_of {["other" := JInt 1]})).
    exact I.
Defined.

(** C3: for a request with a non-empty text, when OPENAI_API_KEY is unset the
    handler returns exactly
    [{"error": "Server configuration error: OpenAI API key missing"}] with
    status 500, having built no client and made no provider call. *)
Theorem post_key_unset w request v :
  text_present request v →
  environ w !! "OPENAI_API_KEY" = None →
  ∃ t,
    ChatView.handle w request =
      (Ok {| data := {["error" := JStr "Server configuration error: OpenAI API key missing"]};
             status_code := 500 |}, t)
    ∧ provider_calls t = [] ∧ clients_built t = [].
Proof.
  intros Ht Hk. eexists. split.
  - rewrite (handle_no_key w request v Ht); [reflexivity |].
    rewrite Hk. reflexivity.
  - split; reflexivity.
Qed.

Lemma post_key_unset_witness :
  ∃ t,
    ChatView.handle Samples.world_without_key Samples.hello =
      (Ok {| data := {["error" := JStr "Server configuration error: OpenAI API key missing"]};
             status_code := 500 |}, t)
    ∧ provider_calls t = [] ∧ clients_built t = [].
Proof.
  apply (post_key_unset Samples.world_without_key Samples.hello (JStr "Hi")).
  - split; reflexivity.
  - reflexivity.
Defined.

(** C9: for a request with a non-empty text, when OPENAI_API_KEY is set to
    the empty string the handler answers as for an unset key: status 500 with
    the configuration-error body, no client built and no provider call. *)
Theorem post_key_empty w request v :
  text_present request v →
  environ w !! "OPENAI_API_KEY" = Some "" →
  ∃ t,
    ChatView.handle w request =
      (Ok {| data := {["error" := JStr "Server configuration error: OpenAI API key missing"]};
             status_code := 500 |}, t)
    ∧ provider_calls t = [] ∧ clients_built t = [].
Proof.
  intros Ht Hk. eexists. split.
  - rewrite (handle_no_key w request v Ht); [reflexivity |].
    rewrite Hk. reflexivity.
  - split; reflexivity.
Qed.

Lemma post_key_empty_witness :
  ∃ t,
    ChatView.handle
      {| environ := {["OPENAI_API_KEY" := ""]};
         client_init := fun _ _ => None;
         completions_create := fun _ _ _ => Ok (Samples.completion_of [Some "unused"]) |}
      Samples.hello =
      (Ok {| data := {["error" := JStr "Server configuration error: OpenAI API key missing"]};
             status_code := 500 |}, t)
    ∧ provider_calls t = [] ∧ clients_built t = [].
Proof.
  apply (post_key_empty
           {| environ := {["OPENAI_API_KEY" := ""]};
              client_init := fun _ _ => None;
              completions_create := fun _ _ _ => Ok (Samples.completion_of [Some "unused"]) |}
           Samples.hello (JStr "Hi")).
  - split; reflexivity.
  - reflexivity.
Defined.

(** C5: with a valid text and key, when the provider call fails with a
    generic API-level error (an [APIError] that is neither a connection nor a
    rate-limit error) whose message is [m], the handler returns status 502
    with body [{"error": "OpenAI API returned an error: " ++ m}]. *)
Theorem post_api_error w request v k e m :
  text_present request v → key_present w k → client_constructed w k →
  provider_answer w k v = Raise e →
  isinstance e APIError = true →
  isinstance e APIConnectionError = false →
  isinstance e RateLimitError = false →
  exc_str e = m →
  fst (ChatView.handle w request) =
    Ok {| data := {["error" := JStr ("OpenAI API returned an error: " ++ m)]};
          status_code := 502 |}.
Proof.
  intros Ht Hk Hc Ha Hapi Hconn Hrate Hm.
  rewrite (handle_call_raises w request v k e Ht Hk Hc Ha).
  unfold classify. rewrite Hconn, Hrate, Hapi, <- Hm. reflexivity.
Qed.

Lemma post_api_error_witness :
  fst (ChatView.handle
         (Samples.world_with None (Raise (Samples.bad_request_error "bad request body")))
         Samples.hello) =
    Ok {| data := {["error" := JStr "OpenAI API returned an error: bad request body"]};
          status_code := 502 |}.
Proof.
  apply (post_api_error
           (Samples.world_with None (Raise (Samples.bad_request_error "bad request body")))
           Samples.hello (JStr "Hi") "sk-test"
           (Samples.bad_request_error "bad request body") "bad request body").
  - split; reflexivity.
  - split; [reflexivity | discriminate].
  - reflexivity.
  - reflexivity.
  - reflexivity.
  - reflexivity.
  - reflexivity.
  - reflexivity.
Defined.

(** C6: with a valid text and key, a connection failure of the provider call
    yields status 503 with exactly the connection message, and a rate-limit
    failure yields status 429 with exactly the rate-limit message; either
    body is a constant, whatever the text [exc_str e] of the provider's
    error. *)
Theorem post_connection_and_rate_limit w request v k e :
  text_present request v → key_present w k → client_constructed w k →
  provider_answer w k v = Raise e →
  (isinstance e APIConnectionError = true →
   fst (ChatView.handle w request) =
     Ok {| data := {["error" := JStr "Failed to connect to OpenAI API. Please check your network connection."]};
           status_code := 503 |})
  ∧ (isinstance e RateLimitError = true →
     isinstance e APIConnectionError = false →
     fst (ChatView.handle w request) =
       Ok {| data := {["error" := JStr "OpenAI API rate limit exceeded. Please try again later."]};
             status_code := 429 |}).
Proof.
  intros Ht Hk Hc Ha.
  rewrite (handle_call_raises w request v k e Ht Hk Hc Ha). unfold classify.
  split.
  - intros Hconn. rewrite Hconn. reflexivity.
  - intros Hrate Hconn. rewrite Hconn, Hrate. reflexivity.
Qed.

Lemma post_connection_and_rate_limit_witness :
  fst (ChatView.handle
         (Samples.world_with None (Raise (Samples.connection_error "Connection error.")))
         Samples.hello) =
    Ok {| data := {["error" := JStr "Failed to connect to OpenAI API. Please check your network connection."]};
          status_code := 503 |}
  ∧ fst (ChatView.handle
           (Samples.world_with None (Raise (Samples.rate_limit_error "Error code: 429")))
           Samples.hello) =
      Ok {| data := {["error" := JStr "OpenAI API rate limit exceeded. Please try again later."]};
            status_code := 429 |}.
Proof.
  split.
  - apply (post_connection_and_rate_limit
             (Samples.world_with None (Raise (Samples.connection_error "Connection error.")))
             Samples.hello (JStr "Hi") "sk-test"
             (Samples.connection_error "Connection error.")).
    + split; reflexivity.
    + split; [reflexivity | discriminate].
    + reflexivity.
    + reflexivity.
    + reflexivity.
  - apply (post_connection_and_rate_limit
             (Samples.world_with None (Raise (Samples.rate_limit_error "Error code: 429")))
             Samples.hello (JStr "Hi") "sk-test"
             (Samples.rate_limit_error "Error code: 429")).
    + split; reflexivity.
    + split; [reflexivity | discriminate].
    + reflexivity.
    + reflexivity.
    + reflexivity.
    + reflexivity.
Defined.

(** The first category in priority order is the one of least rank among
    those the exception belongs to. *)
Lemma classify_least e c :
  belongs e c →
  (∀ c', (rank c' < rank c)%nat → ¬ belongs e c') →
  classify e = Some c.
Proof.
  unfold belongs, classify. intros Hc Hmin.
  destruct (isinstance e APIConnectionError) eqn:E1.
  { destruct c; try reflexivity;
      exfalso; apply (Hmin Connection); simpl; (lia || exact E1). }
  destruct (isinstance e RateLimitError) eqn:E2.
  { destruct c; simpl in Hc; try congruence; try reflexivity;
      exfalso; apply (Hmin RateLimit); simpl; (lia || exact E2). }
  destruct (isinstance e APIError) eqn:E3.
  { destruct c; simpl in Hc; try congruence; try reflexivity;
      exfalso; apply (Hmin ApiError); simpl; (lia || exact E3). }
  destruct c; simpl in Hc; try congruence.
  rewrite Hc. reflexivity.
Qed.

Lemma Ok_inj {A} (a b : A) : Ok a = Ok b → a = b.
Proof. intros H. injection H. trivial. Qed.

(** Distinct failure rows have distinct statuses, hence distinct responses. *)
Lemma row_response_failure_inj c c' m m' :
  row_response (RowFailure c) m = row_response (RowFailure c') m' → c = c'.
Proof.
  intros H. apply (f_equal status_code) in H.
  destruct c, c'; simpl in H; (reflexivity || discriminate).
Qed.

(** C7: classification follows the priority order connection > rate-limit >
    generic API error > unexpected: a failure of the provider call that
    belongs to category [c] and to no category of higher priority is answered
    with the response of [c], and with the response of no other category it
    belongs to. *)
Theorem post_priority_order w request v k e c :
  text_present request v → key_present w k → client_constructed w k →
  provider_answer w k v = Raise e →
  belongs e c →
  (∀ c', (rank c' < rank c)%nat → ¬ belongs e c') →
  fst (ChatView.handle w request) = Ok (row_response (RowFailure c) (exc_str e))
  ∧ ∀ c', belongs e c' → c' ≠ c →
      fst (ChatView.handle w request)
        ≠ Ok (row_response (RowFailure c') (exc_str e)).
Proof.
  intros Ht Hk Hc Ha Hb Hmin.
  rewrite (handle_call_raises w request v k e Ht Hk Hc Ha).
  rewrite (classify_least e c Hb Hmin). cbn [fst]. split; [reflexivity |].
  intros c' _ Hne Heq. apply Hne. symmetry.
  exact (row_response_failure_inj _ _ _ _ (Ok_inj _ _ Heq)).
Qed.

Lemma post_priority_order_witness :
  fst (ChatView.handle
         (Samples.world_with None (Raise (Samples.rate_limit_error "slow down")))
         Samples.hello)
    = Ok (row_response (RowFailure RateLimit) "slow down")
  ∧ ∀ c', belongs (Samples.rate_limit_error "slow down") c' → c' ≠ RateLimit →
      fst (ChatView.handle
             (Samples.world_with None (Raise (Samples.rate_limit_error "slow down")))
             Samples.hello)
        ≠ Ok (row_response (RowFailure c') "slow down").
Proof.
  apply (post_priority_order
           (Samples.world_with None (Raise (Samples.rate_limit_error "slow down")))
           Samples.hello (JStr "Hi") "sk-test"
           (Samples.rate_limit_error "slow down") RateLimit).
  - split; reflexivity.
  - split; [reflexivity | discriminate].
  - reflexivity.
  - reflexivity.
  - reflexivity.
  - intros c' Hlt Hb. destruct c'; simpl in Hlt; try lia. discriminate Hb.
Defined.

(** The rate-limit sample is also an API error and an [Exception]: it belongs
    to three categories. *)
Example rate_limit_error_categories :
  belongs (Samples.rate_limit_error "slow down") RateLimit
  ∧ belongs (Samples.rate_limit_error "slow down") ApiError
  ∧ belongs (Samples.rate_limit_error "slow down") Unexpected
  ∧ ¬ belongs (Samples.rate_limit_error "slow down") Connection.
Proof. repeat split; try reflexivity. discriminate. Qed.

(** C8: with a valid text and key, the handler constructs exactly one client
    and every provider call goes through it; the client targets the value of
    BASE_URL when the variable is set and the provider's default endpoint
    when it is unset. *)
Theorem post_base_url w request v k :
  text_present request v → key_present w k →
  ∃ c,
    clients_built (snd (ChatView.handle w request)) = [c]
    ∧ (provider_calls (snd (ChatView.handle w request)) = []
       ∨ ∃ ms mo,
           provider_calls (snd (ChatView.handle w request)) = [EvCreate c ms mo])
    ∧ (∀ u, environ w !! "BASE_URL" = Some u →
            ∀ provider_default, client_target provider_default c = u)
    ∧ (environ w !! "BASE_URL" = None →
       ∀ provider_default, client_target provider_default c = provider_default).
Proof.
  intros Ht Hk. exists (client_for w k).
  assert (Hrun :
    clients_built (snd (ChatView.handle w request)) = [client_for w k]
    ∧ (provider_calls (snd (ChatView.handle w request)) = []
       ∨ ∃ ms mo, provider_calls (snd (ChatView.handle w request))
                  = [EvCreate (client_for w k) ms mo])).
  { destruct (client_init w (Some k) (environ w !! "BASE_URL")) as [e|] eqn:Hc.
    - rewrite (handle_client_raises w request v k e Ht Hk Hc).
      split; [reflexivity | left; reflexivity].
    - destruct (provider_answer w k v) as [comp|e] eqn:Ha.
      + rewrite (handle_call_returns w request v k comp Ht Hk Hc Ha).
        destruct (choices comp);
          (split; [reflexivity | right; eexists _, _; reflexivity]).
      + rewrite (handle_call_raises w request v k e Ht Hk Hc Ha).
        destruct (classify e);
          (split; [reflexivity | right; eexists _, _; reflexivity]). }
  destruct Hrun as [Hb Hp]. repeat split; try assumption.
  - intros u Hu dflt. unfold client_target, client_for. simpl.
    rewrite Hu. reflexivity.
  - intros Hu dflt. unfold client_target, client_for. simpl.
    rewrite Hu. reflexivity.
Qed.

Lemma post_base_url_witness :
  ∃ c,
    clients_built
      (snd (ChatView.handle
              (Samples.world_with (Some "https://openrouter.ai/api/v1")
                 (Ok (Samples.completion_of [Some "Hello!"])))
              Samples.hello)) = [c]
    ∧ (provider_calls
         (snd (ChatView.handle
                 (Samples.world_with (Some "https://openrouter.ai/api/v1")
                    (Ok (Samples.completion_of [Some "Hello!"])))
                 Samples.hello)) = []
       ∨ ∃ ms mo,
           provider_calls
             (snd (ChatView.handle
                     (Samples.world_with (Some "https://openrouter.ai/api/v1")
                        (Ok (Samples.completion_of [Some "Hello!"])))
                     Samples.hello)) = [EvCreate c ms mo])
    ∧ (∀ u, environ (Samples.world_with (Some "https://openrouter.ai/api/v1")
                       (Ok (Samples.completion_of [Some "Hello!"])))
              !! "BASE_URL" = Some u →
            ∀ provider_default, client_target provider_default c = u)
    ∧ (environ (Samples.world_with (Some "https://openrouter.ai/api/v1")
                  (Ok (Samples.completion_of [Some "Hello!"])))
         !! "BASE_URL" = None →
       ∀ provider_default, client_target provider_default c = provider_default).
Proof.
  apply (post_base_url
           (Samples.world_with (Some "https://openrouter.ai/api/v1")
              (Ok (Samples.completion_of [Some "Hello!"])))
           Samples.hello (JStr "Hi") "sk-test").
  - split; reflexivity.
  - split; [reflexivity | discriminate].
Defined.

(** The two cases of C8 on samples: the client built under a BASE_URL targets
    it, the one built without targets the default. *)
Example base_url_set_sample :
  client_target "https://api.openai.com/v1"
    (client_for (Samples.world_with (Some "https://openrouter.ai/api/v1")
                   (Ok (Samples.completion_of []))) "sk-test")
  = "https://openrouter.ai/api/v1".
Proof. reflexivity. Qed.

Example base_url_unset_sample :
  client_target "https://api.openai.com/v1"
    (client_for (Samples.world_with None (Ok (Samples.completion_of []))) "sk-test")
  = "https://api.openai.com/v1".
Proof. reflexivity. Qed.

(** C10: with a valid text and key, when the provider call returns an empty
    list of choices, indexing it raises inside the [try] block and the
    catch-all clause answers: status 500 with
    [{"error": "An unexpected error occurred on the server."}], not a 200
    success body. *)
Theorem post_empty_choices w request v k comp :
  text_present request v → key_present w k → client_constructed w k →
  provider_answer w k v = Ok comp →
  choices comp = [] →
  fst (ChatView.handle w request) =
    Ok {| data := {["error" := JStr "An unexpected error occurred on the server."]};
          status_code := 500 |}
  ∧ ∀ c, fst (ChatView.handle w request) ≠ Ok (success_response c).
Proof.
  intros Ht Hk Hc Ha Hch.
  rewrite (handle_call_returns w request v k comp Ht Hk Hc Ha), Hch.
  cbn [fst]. split; [reflexivity |].
  intros c Heq. apply Ok_inj in Heq.
  apply (f_equal status_code) in Heq. discriminate Heq.
Qed.

Lemma post_empty_choices_witness :
  fst (ChatView.handle
         (Samples.world_with None (Ok (Samples.completion_of [])))
         Samples.hello) =
    Ok {| data := {["error" := JStr "An unexpected error occurred on the server."]};
          status_code := 500 |}
  ∧ ∀ c, fst (ChatView.handle
                (Samples.world_with None (Ok (Samples.completion_of [])))
                Samples.hello) ≠ Ok (success_response c).
Proof.
  apply (post_empty_choices
           (Samples.world_with None (Ok (Samples.completion_of [])))
           Samples.hello (JStr "Hi") "sk-test" (Samples.completion_of [])).
  - split; reflexivity.
  - split; [reflexivity | discriminate].
  - reflexivity.
  - reflexivity.
  - reflexivity.
Defined.

(** ** Failures and the handler boundary *)



Lemma text_absent_not_present request v :
  text_absent request → ¬ text_present request v.
Proof.
  unfold text_absent, text_present. destruct (request_data request); try tauto.
  intros Ha [Hl Hv]. rewrite Hl in Ha. congruence.
Qed.

(** An object body either carries a non-empty text or lacks one. *)
Lemma object_text_cases request d :
  request_data request = JObj d →
  text_absent request ∨ ∃ v, text_present request v.
Proof.
  unfold text_absent, text_present. intros ->.
  destruct (d !! "text") as [v|]; [| left; exact I].
  destruct (truthy v) eqn:Hv; [right; exists v; split; reflexivity || exact Hv
                               | left; reflexivity].
Qed.

(** The environment either holds a usable key or none. *)
Lemma key_cases w :
  truthy_env (environ w !! "OPENAI_API_KEY") = false ∨ ∃ k, key_present w k.
Proof.
  unfold key_present.
  destruct (environ w !! "OPENAI_API_KEY") as [k|]; [| left; reflexivity].
  destruct k as [|a k]; [left; reflexivity |].
  right. exists (String a k). split; [reflexivity | discriminate].
Qed.




(** An exception that is not an [Exception] (a [KeyboardInterrupt], say)
    raised by the provider call passes every clause. *)
Lemma base_exception_propagates w request v k e :
  text_present request v → key_present w k → client_constructed w k →
  provider_answer w k v = Raise e →
  isinstance e Exception = false →
  isinstance e APIError = false →
  isinstance e APIConnectionError = false →
  isinstance e RateLimitError = false →
  fst (ChatView.handle w request) = Raise e.
Proof.
  intros Ht Hk Hc Ha H0 H1 H2 H3.
  rewrite (handle_call_raises w request v k e Ht Hk Hc Ha).
  unfold classify. rewrite H0, H1, H2, H3. reflexivity.
Qed.

Example keyboard_interrupt_propagates :
  fst (ChatView.handle
         (Samples.world_with None (Raise Samples.keyboard_interrupt))
         Samples.hello) = Raise Samples.keyboard_interrupt.
Proof. reflexivity. Qed.

(** A body that parses to a list raises [AttributeError] on the first line of
    the handler. *)
Example list_body_propagates :
  ChatView.handle Samples.world_without_key {| request_data := JList [] |}
  = (Raise (mkExn [AttributeError; Exception; BaseException]
                  "'list' object has no attribute 'get'"), []).
Proof. reflexivity. Qed.





(** On that sample the catch-all clause answers and logs the error text,
    which stays out of the body. *)
Example value_error_sample :
  ChatView.handle
    (Samples.world_with None (Raise (Samples.value_error "boom")))
    Samples.hello
  = (Ok {| data := {["error" := JStr "An unexpected error occurred on the server."]};
           status_code := 500 |},
     [ EvGetenv "OPENAI_API_KEY"; EvGetenv "BASE_URL";
       EvNewClient (Some "sk-test") None;
       EvCreate (mkClient (Some "sk-test") None)
         [ {["role" := JStr "user"; "content" := JStr "Hi"]} ]
         "deepseek/deepseek-r1-0528:free";
       EvPrint "Unexpected Error: boom" ]).
Proof. reflexivity. Qed.

(** ** The handler as a whole *)

(** Every run of the handler is one of the paths. *)
Lemma handle_path w request : path w request (ChatView.handle w request).
Proof.
  destruct (request_data request) as [| | | | | |d] eqn:Hd;
    try (rewrite (handle_not_object w request)
           by (intros d'; rewrite Hd; discriminate);
         apply PathNotObject; intros d'; rewrite Hd; discriminate).
  destruct (object_text_cases request d Hd) as [Hno | [v Ht]].
  { rewrite (handle_no_text w request Hno). apply PathNoText, Hno. }
  destruct (key_cases w) as [Hnk | [k Hk]].
  { rewrite (handle_no_key w request v Ht Hnk). eapply PathNoKey; eassumption. }
  destruct (client_init w (Some k) (environ w !! "BASE_URL")) as [e|] eqn:Hc.
  { rewrite (handle_client_raises w request v k e Ht Hk Hc).
    eapply PathClientRaises; eassumption. }
  destruct (provider_answer w k v) as [comp|e] eqn:Ha.
  - rewrite (handle_call_returns w request v k comp Ht Hk Hc Ha).
    destruct (choices comp) as [|ch rest] eqn:Hch.
    + eapply PathNoChoice; eassumption.
    + eapply PathSuccess; eassumption.
  - rewrite (handle_call_raises w request v k e Ht Hk Hc Ha).
    destruct (classify e) as [c|] eqn:Hcl.
    + eapply PathCaught; eassumption.
    + eapply PathEscapes; eassumption.
Qed.

(** X1: no retry and no second client. Whatever the request and the world,
    a run constructs at most one client, with the key and the BASE_URL of the
    environment, and makes at most one provider call, through that client,
    with the single user message carrying the request's text and the fixed
    model. *)
Theorem post_at_most_one_call w request :
  (clients_built (snd (ChatView.handle w request)) = []
   ∨ ∃ k, key_present w k
          ∧ clients_built (snd (ChatView.handle w request))
            = [mkClient (Some k) (environ w !! "BASE_URL")])
  ∧ (provider_calls (snd (ChatView.handle w request)) = []
     ∨ ∃ v k, text_present request v ∧ key_present w k
              ∧ provider_calls (snd (ChatView.handle w request))
                = [ EvCreate (mkClient (Some k) (environ w !! "BASE_URL"))
                      [ {["role" := JStr "user"; "content" := v]} ]
                      "deepseek/deepseek-r1-0528:free" ]).
Proof.
  destruct (handle_path w request); split;
    try (left; reflexivity);
    right;
    first [ exists k; split; [assumption | reflexivity]
          | exists v, k; split; [assumption | split; [assumption | reflexivity]] ].
Qed.

(** X2: the provider is called exactly when the request carries a non-empty
    text, the environment a non-empty key, and the client constructor did not
    raise. *)
Theorem post_calls_provider_iff w request :
  provider_calls (snd (ChatView.handle w request)) ≠ []
  ↔ ∃ v k, text_present request v ∧ key_present w k ∧ client_constructed w k.
Proof.
  split.
  - destruct (handle_path w request); cbn [snd];
      try (intros Hne; exfalso; apply Hne; reflexivity);
      intros _; exists v, k; auto.
  - intros (v & k & Ht & Hk & Hc).
    destruct (provider_answer w k v) as [comp|e] eqn:Ha.
    + rewrite (handle_call_returns w request v k comp Ht Hk Hc Ha).
      destruct (choices comp); discriminate.
    + rewrite (handle_call_raises w request v k e Ht Hk Hc Ha).
      destruct (classify e); discriminate.
Qed.

(** X3: the shape of every response. A response the handler returns has
    either status 200 and a body with the single key "response", or a status
    among 400, 429, 500, 502, 503 and a body with the single key "error"
    holding a string. *)
Theorem post_response_shape w request r :
  fst (ChatView.handle w request) = Ok r →
  (status_code r = 200 ∧ ∃ c, data r = {["response" := c]})
  ∨ ((status_code r = 400 ∨ status_code r = 429 ∨ status_code r = 500
      ∨ status_code r = 502 ∨ status_code r = 503)
     ∧ ∃ m, data r = {["error" := JStr m]}).
Proof.
  destruct (handle_path w request) as [| | | | | | ? ? ? c |]; cbn [fst];
    intros Hr; try discriminate Hr; apply Ok_inj in Hr; subst r.
  - right. split; [left; reflexivity | eexists; reflexivity].
  - right. split; [do 2 right; left; reflexivity | eexists; reflexivity].
  - left. split; [reflexivity | eexists; reflexivity].
  - right. split; [do 2 right; left; reflexivity | eexists; reflexivity].
  - right. split; [| eexists; reflexivity].
    destruct c; cbn; auto.
Qed.

Lemma post_response_shape_witness :
  (status_code (success_response (JStr "Hello!")) = 200
   ∧ ∃ c, data (success_response (JStr "Hello!")) = {["response" := c]})
  ∨ ((status_code (success_response (JStr "Hello!")) = 400
      ∨ status_code (success_response (JStr "Hello!")) = 429
      ∨ status_code (success_response (JStr "Hello!")) = 500
      ∨ status_code (success_response (JStr "Hello!")) = 502
      ∨ status_code (success_response (JStr "Hello!")) = 503)
     ∧ ∃ m, data (success_response (JStr "Hello!")) = {["error" := JStr m]}).
Proof.
  apply (post_response_shape
           (Samples.world_with None (Ok (Samples.completion_of [Some "Hello!"])))
           Samples.hello (success_response (JStr "Hello!"))).
  reflexivity.
Defined.


Lemma text_present_object request v :
  text_present request v → ∃ d, request_data request = JObj d.
Proof.
  unfold text_present. destruct (request_data request); try tauto.
  intros _. eexists; reflexivity.
Qed.

Lemma row_status_failure_inj c c' :
  row_status (RowFailure c) = row_status (RowFailure c') → c = c'.
Proof. destruct c, c'; simpl; intros H; (reflexivity || discriminate H). Qed.




Example malformed_body_propagates :
  handle_http Samples.world_without_key
    {| data_property := Raise (parse_error "Expecting value: line 1 column 1 (char 0)") |}
  = (Raise (parse_error "Expecting value: line 1 column 1 (char 0)"), []).
Proof. reflexivity. Qed.


(** X5: a caught failure is logged once. When the provider call raises an
    exception of category [c] (the first in priority order it belongs to),
    the run is: the two environment reads, the client construction, the
    call, then exactly one printed line, the category's prefix followed by
    the text of the exception. *)
Theorem post_failure_logged w request v k e c :
  text_present request v → key_present w k → client_constructed w k →
  provider_answer w k v = Raise e →
  belongs e c →
  (∀ c', (rank c' < rank c)%nat → ¬ belongs e c') →
  snd (ChatView.handle w request)
    = (events_to_call w k v ++ [EvPrint (log_line c e)])%list
  ∧ printed (snd (ChatView.handle w request)) = [log_line c e].
Proof.
  intros Ht Hk Hc Ha Hb Hmin.
  rewrite (handle_call_raises w request v k e Ht Hk Hc Ha).
  rewrite (classify_least e c Hb Hmin). split; reflexivity.
Qed.

Lemma post_failure_logged_witness :
  snd (ChatView.handle
         (Samples.world_with None (Raise (Samples.rate_limit_error "slow down")))
         Samples.hello)
    = [ EvGetenv "OPENAI_API_KEY"; EvGetenv "BASE_URL";
        EvNewClient (Some "sk-test") None;
        EvCreate (mkClient (Some "sk-test") None)
          [ {["role" := JStr "user"; "content" := JStr "Hi"]} ]
          "deepseek/deepseek-r1-0528:free";
        EvPrint "OpenAI Rate Limit Error: slow down" ]
  ∧ printed (snd (ChatView.handle
                    (Samples.world_with None (Raise (Samples.rate_limit_error "slow down")))
                    Samples.hello))
    = ["OpenAI Rate Limit Error: slow down"].
Proof.
  apply (post_failure_logged
           (Samples.world_with None (Raise (Samples.rate_limit_error "slow down")))
           Samples.hello (JStr "Hi") "sk-test"
           (Samples.rate_limit_error "slow down") RateLimit).
  - split; reflexivity.
  - split; [reflexivity | discriminate].
  - reflexivity.
  - reflexivity.
  - reflexivity.
  - intros c' Hlt Hb. destruct c'; simpl in Hlt; try lia. discriminate Hb.
Defined.


(** X7: the handler's footprint in the environment. Two worlds whose provider
    behaves alike and whose environments agree on OPENAI_API_KEY and on
    BASE_URL give the same outcome and the same trace, whatever else their
    environments hold. *)
Theorem post_environment_footprint w1 w2 request :
  environ w1 !! "OPENAI_API_KEY" = environ w2 !! "OPENAI_API_KEY" →
  environ w1 !! "BASE_URL" = environ w2 !! "BASE_URL" →
  (∀ key url, client_init w1 key url = client_init w2 key url) →
  (∀ c ms mo, completions_create w1 c ms mo = completions_create w2 c ms mo) →
  ChatView.handle w1 request = ChatView.handle w2 request.
Proof.
  intros Hkey Hurl Hinit Hcreate. run.
  destruct (request_data request); simpl; try reflexivity.
  destruct (truthy _); simpl; [| reflexivity].
  rewrite <- Hkey, <- Hurl.
  destruct (truthy_env _); simpl; [| reflexivity].
  rewrite <- Hinit.
  destruct (client_init w1 _ _); [reflexivity |].
  rewrite <- Hcreate. reflexivity.
Qed.

Lemma post_environment_footprint_witness :
  ChatView.handle
    (Samples.world_with None (Ok (Samples.completion_of [Some "Hello!"])))
    Samples.hello
  = ChatView.handle
      {| environ := <["OPENAI_BASE_URL" := "https://example.org/v1"]>
                      (<["HOME" := "/root"]> {["OPENAI_API_KEY" := "sk-test"]});
         client_init := fun _ _ => None;
         completions_create :=
           fun _ _ _ => Ok (Samples.completion_of [Some "Hello!"]) |}
      Samples.hello.
Proof.
  apply (post_environment_footprint
           (Samples.world_with None (Ok (Samples.completion_of [Some "Hello!"])))
           {| environ := <["OPENAI_BASE_URL" := "https://example.org/v1"]>
                           (<["HOME" := "/root"]> {["OPENAI_API_KEY" := "sk-test"]});
              client_init := fun _ _ => None;
              completions_create :=
                fun _ _ _ => Ok (Samples.completion_of [Some "Hello!"]) |}
           Samples.hello).
  - reflexivity.
  - reflexivity.
  - intros key url. reflexivity.
  - intros c ms mo. reflexivity.
Defined.

(** X8: which variables are read. A request with a non-empty text makes the
    handler read OPENAI_API_KEY and then BASE_URL, once each, before the key
    is examined (so BASE_URL is read even when the key is missing); any other
    request reads nothing. *)
Theorem post_env_reads w request :
  ((∃ v, text_present request v)
   ∧ env_reads (snd (ChatView.handle w request))
     = ["OPENAI_API_KEY"; "BASE_URL"])
  ∨ (¬ (∃ v, text_present request v)
     ∧ env_reads (snd (ChatView.handle w request)) = []).
Proof.
  destruct (handle_path w request) as [Hd | Hno | | | | | |];
    try (left; split; [eexists; eassumption | reflexivity]); right.
  - split; [| reflexivity]. intros [v Ht].
    destruct (text_present_object request v Ht) as [d Hobj].
    exact (Hd d Hobj).
  - split; [| reflexivity]. intros [v Ht].
    exact (text_absent_not_present request v Hno Ht).
Qed.

(** X9: a first choice without content. When the provider returns a first
    choice whose content is [None], the handler still answers with status
    200, the body being [{"response": null}]. *)
Theorem post_null_content w request v k comp ch rest :
  text_present request v → key_present w k → client_constructed w k →
  provider_answer w k v = Ok comp →
  choices comp = ch :: rest →
  message_content (message ch) = None →
  fst (ChatView.handle w request)
    = Ok {| data := {["response" := JNull]}; status_code := 200 |}.
Proof.
  intros Ht Hk Hc Ha Hch Hnone.
  rewrite (handle_call_returns w request v k comp Ht Hk Hc Ha), Hch.
  cbn [fst]. unfold success_response. rewrite Hnone. reflexivity.
Qed.

Lemma post_null_content_witness :
  fst (ChatView.handle
         (Samples.world_with None (Ok (Samples.completion_of [None; Some "second"])))
         Samples.hello)
    = Ok {| data := {["response" := JNull]}; status_code := 200 |}.
Proof.
  apply (post_null_content
           (Samples.world_with None (Ok (Samples.completion_of [None; Some "second"])))
           Samples.hello (JStr "Hi") "sk-test"
           (Samples.completion_of [None; Some "second"])
           {| message := {| message_content := None |} |}
           [ {| message := {| message_content := Some "second" |} |} ]).
  - split; reflexivity.
  - split; [reflexivity | discriminate].
  - reflexivity.
  - reflexivity.
  - reflexivity.
  - reflexivity.
Defined.

(** X10: the log of an empty answer. When the provider returns no choice, the
    run ends with the single printed line
    "Unexpected Error: list index out of range", after the one provider
    call. *)
Theorem post_empty_choices_logged w request v k comp :
  text_present request v → key_present w k → client_constructed w k →
  provider_answer w k v = Ok comp →
  choices comp = [] →
  snd (ChatView.handle w request)
    = (events_to_call w k v
         ++ [EvPrint "Unexpected Error: list index out of range"])%list.
Proof.
  intros Ht Hk Hc Ha Hch.
  rewrite (handle_call_returns w request v k comp Ht Hk Hc Ha), Hch.
  reflexivity.
Qed.

Lemma post_empty_choices_logged_witness :
  snd (ChatView.handle
         (Samples.world_with None (Ok (Samples.completion_of [])))
         Samples.hello)
    = [ EvGetenv "OPENAI_API_KEY"; EvGetenv "BASE_URL";
        EvNewClient (Some "sk-test") None;
        EvCreate (mkClient (Some "sk-test") None)
          [ {["role" := JStr "user"; "content" := JStr "Hi"]} ]
          "deepseek/deepseek-r1-0528:free";
        EvPrint "Unexpected Error: list index out of range" ].
Proof.
  apply (post_empty_choices_logged
           (Samples.world_with None (Ok (Samples.completion_of [])))
           Samples.hello (JStr "Hi") "sk-test" (Samples.completion_of [])).
  - split; reflexivity.
  - split; [reflexivity | discriminate].
  - reflexivity.
  - reflexivity.
  - reflexivity.
Defined.

(** ** What each status code means *)

(** X11: status 400 is returned exactly for an object body whose text is
    missing or empty; no provider or configuration problem ever produces
    it. *)
Theorem post_400_iff w request :
  (∃ r, fst (ChatView.handle w request) = Ok r ∧ status_code r = 400)
  ↔ text_absent request.
Proof.
  split.
  - destruct (handle_path w request) as [| Hno | | | | | ? ? ? c |];
      cbn [fst]; intros (r & Hr & Hs); try discriminate Hr;
      apply Ok_inj in Hr; subst r; try discriminate Hs.
    + exact Hno.
    + destruct c; discriminate Hs.
  - intros Hno. rewrite (handle_no_text w request Hno).
    eexists. split; reflexivity.
Qed.

(** X12: status 200 is returned exactly when the text and the key are
    present, the client was constructed and the provider call returned at
    least one choice. *)
Theorem post_200_iff w request :
  (∃ r, fst (ChatView.handle w request) = Ok r ∧ status_code r = 200)
  ↔ ∃ v k comp, text_present request v ∧ key_present w k
                ∧ client_constructed w k
                ∧ provider_answer w k v = Ok comp ∧ choices comp ≠ [].
Proof.
  split.
  - destruct (handle_path w request)
      as [| | | | v k comp ch rest Ht Hk Hc Ha Hch | | ? ? ? c |];
      cbn [fst]; intros (r & Hr & Hs); try discriminate Hr;
      apply Ok_inj in Hr; subst r; try discriminate Hs.
    + exists v, k, comp. rewrite Hch. repeat split; try assumption.
      * apply Hk.
      * apply Hk.
      * discriminate.
    + destruct c; discriminate Hs.
  - intros (v & k & comp & Ht & Hk & Hc & Ha & Hch).
    rewrite (handle_call_returns w request v k comp Ht Hk Hc Ha).
    destruct (choices comp); [congruence |].
    eexists. split; reflexivity.
Qed.

(** X13: statuses 503, 429 and 502 come from the provider call only. For a
    category [c] other than the catch-all, the status of [c] is returned
    exactly when the provider call was made and raised an exception whose
    first category in priority order is [c]. *)
Theorem post_provider_status_iff w request c :
  c ≠ Unexpected →
  (∃ r, fst (ChatView.handle w request) = Ok r
        ∧ status_code r = row_status (RowFailure c))
  ↔ ∃ v k e, text_present request v ∧ key_present w k
             ∧ client_constructed w k
             ∧ provider_answer w k v = Raise e ∧ classify e = Some c.
Proof.
  intros Hc. split.
  - destruct (handle_path w request)
      as [| | | | | | v k e c0 Ht Hk Hcl Ha Hcls |];
      cbn [fst]; intros (r & Hr & Hs); try discriminate Hr;
      apply Ok_inj in Hr; subst r;
      try (destruct c; (discriminate Hs || congruence)).
    apply row_status_failure_inj in Hs. subst c0.
    exists v, k, e. auto.
  - intros (v & k & e & Ht & Hk & Hcl & Ha & Hcls).
    rewrite (handle_call_raises w request v k e Ht Hk Hcl Ha), Hcls.
    eexists. split; reflexivity.
Qed.

Lemma post_provider_status_iff_witness :
  (∃ r, fst (ChatView.handle
               (Samples.world_with None (Raise (Samples.connection_error "down")))
               Samples.hello) = Ok r
        ∧ status_code r = 503)
  ↔ ∃ v k e,
      text_present Samples.hello v
      ∧ key_present (Samples.world_with None (Raise (Samples.connection_error "down"))) k
      ∧ client_constructed (Samples.world_with None (Raise (Samples.connection_error "down"))) k
      ∧ provider_answer (Samples.world_with None (Raise (Samples.connection_error "down"))) k v
        = Raise e
      ∧ classify e = Some Connection.
Proof.
  apply (post_provider_status_iff
           (Samples.world_with None (Raise (Samples.connection_error "down")))
           Samples.hello Connection).
  discriminate.
Defined.

(** X14: the three causes of status 500. The handler returns 500 exactly
    when the text is present and the key is unset or empty, or the provider
    call returned no choice, or the provider call raised an exception that
    only the catch-all clause takes. *)
Theorem post_500_iff w request :
  (∃ r, fst (ChatView.handle w request) = Ok r ∧ status_code r = 500)
  ↔ (∃ v, text_present request v
          ∧ truthy_env (environ w !! "OPENAI_API_KEY") = false)
    ∨ (∃ v k comp, text_present request v ∧ key_present w k
                   ∧ client_constructed w k
                   ∧ provider_answer w k v = Ok comp ∧ choices comp = [])
    ∨ (∃ v k e, text_present request v ∧ key_present w k
                ∧ client_constructed w k
                ∧ provider_answer w k v = Raise e
                ∧ classify e = Some Unexpected).
Proof.
  split.
  - destruct (handle_path w request)
      as [| | v Ht Hnk | | | v k comp Ht Hk Hc Ha Hch
          | v k e c Ht Hk Hc Ha Hcls |];
      cbn [fst]; intros (r & Hr & Hs); try discriminate Hr;
      apply Ok_inj in Hr; subst r; try discriminate Hs.
    + left. exists v. auto.
    + right. left. exists v, k, comp. auto.
    + right. right. exists v, k, e.
      change 500 with (row_status (RowFailure Unexpected)) in Hs.
      apply row_status_failure_inj in Hs. subst c. auto.
  - intros [(v & Ht & Hnk) | [(v & k & comp & Ht & Hk & Hc & Ha & Hch)
                             | (v & k & e & Ht & Hk & Hc & Ha & Hcls)]].
    + rewrite (handle_no_key w request v Ht Hnk). eexists. split; reflexivity.
    + rewrite (handle_call_returns w request v k comp Ht Hk Hc Ha), Hch.
      eexists. split; reflexivity.
    + rewrite (handle_call_raises w request v k e Ht Hk Hc Ha), Hcls.
      eexists. split; reflexivity.
Qed.

(** X15: the handler's footprint in the request. Only the [text] field of
    the body is looked at: two object bodies with the same [text] (or both
    without one) give the same outcome and the same trace, whatever other
    fields they carry. *)
Theorem post_request_footprint w r1 r2 d1 d2 :
  request_data r1 = JObj d1 →
  request_data r2 = JObj d2 →
  d1 !! "text" = d2 !! "text" →
  ChatView.handle w r1 = ChatView.handle w r2.
Proof.
  intros H1 H2 Htext. run. rewrite H1, H2. simpl. rewrite Htext. reflexivity.
Qed.

Lemma post_request_footprint_witness :
  ChatView.handle
    (Samples.world_with None (Ok (Samples.completion_of [Some "Hello!"])))
    Samples.hello
  = ChatView.handle
      (Samples.world_with None (Ok (Samples.completion_of [Some "Hello!"])))
      (Samples.request_of
         (<["model" := JStr "gpt-4"]>
            (<["history" := JList [JStr "earlier"]]> {["text" := JStr "Hi"]}))).
Proof.
  apply (post_request_footprint
           (Samples.world_with None (Ok (Samples.completion_of [Some "Hello!"])))
           Samples.hello
           (Samples.request_of
              (<["model" := JStr "gpt-4"]>
                 (<["history" := JList [JStr "earlier"]]> {["text" := JStr "Hi"]})))
           {["text" := JStr "Hi"]}
           (<["model" := JStr "gpt-4"]>
              (<["history" := JList [JStr "earlier"]]> {["text" := JStr "Hi"]}))).
  - reflexivity.
  - reflexivity.
  - reflexivity.
Defined.
